(** * Agora token server: the request handlers and their properties

    A shallow embedding of the four token-issuing Express handlers of the
    repository:

    - [generateRTCToken], [generateRTMToken] and [generateRTEToken] of
      [src/index.js] (routes [/rtc/...], [/rtm/...] and [/rte/...]);
    - the [/rtcToken] handler of the second server file
      ([src/unnamed/part_000]), here [rtcToken].

    The handlers are written in a small monad that threads the response
    object being built ([resp.header], [resp.status]) and the trace of
    calls into the [agora-access-token] package, and in which
    [return resp.json (...)] ends the handler.  The package itself is not
    part of the repository: its role constants and its token builders are
    Section variables. *)

From Stdlib Require Import ZArith List String Ascii Bool Lia.
From Stdlib Require DecimalString DecimalPos.
Import ListNotations.

Local Open Scope string_scope.
Local Open Scope Z_scope.

(** ** JavaScript values used by the handlers *)

Module Js.

(** A JavaScript number as the handlers meet it: an integer or [NaN].
    The clock reading, the default 3600 and a parsed query value are
    integers; on the safe range (below 2^53 in absolute value) the
    double-precision operations of the source agree with [Z]. *)
Inductive number : Type :=
| Num (z : Z)
| NaN.

(** [a + b] on numbers. *)
Definition add (a b : number) : number :=
  match a, b with
  | Num x, Num y => Num (x + y)
  | _, _ => NaN
  end.

(** A value handed to the token builders. *)
Inductive value : Type :=
| Undefined
| Str (s : string)
| Number (n : number).

(** A route parameter, a query field or an environment variable:
    [undefined] or a string. *)
Definition field := option string.

Definition to_value (f : field) : value :=
  match f with
  | Some s => Str s
  | None => Undefined
  end.

(** Truthiness of a field: [undefined] and the empty string are falsy. *)
Definition truthy (f : field) : bool :=
  match f with
  | Some s => negb (s =? "")%string
  | None => false
  end.

(** [f === lit] for a string literal [lit]. *)
Definition strict_eq (f : field) (lit : string) : bool :=
  match f with
  | Some s => (s =? lit)%string
  | None => false
  end.

(** White space skipped by [parseInt] (the ASCII part of it). *)
Definition is_space (c : ascii) : bool :=
  let n := nat_of_ascii c in
  ((n =? 9) || (n =? 10) || (n =? 11) || (n =? 12) || (n =? 13) || (n =? 32))%nat.

Fixpoint trim_start (s : string) : string :=
  match s with
  | String c r => if is_space c then trim_start r else s
  | EmptyString => s
  end.

Definition digit_of (c : ascii) : option Z :=
  let n := Z.of_nat (nat_of_ascii c) in
  if (48 <=? n) && (n <=? 57) then Some (n - 48) else None.

(** The value of the longest prefix of decimal digits; [acc] is [None]
    while no digit has been read. *)
Fixpoint digits (acc : option Z) (s : string) : option Z :=
  match s with
  | String c r =>
      match digit_of c with
      | Some d =>
          digits (Some (10 * match acc with Some a => a | None => 0 end + d)) r
      | None => acc
      end
  | EmptyString => acc
  end.

(** [parseInt (s, 10)]: leading white space, an optional sign, then the
    longest run of decimal digits; [NaN] when there is no digit. *)
Definition parseInt_string (s : string) : number :=
  let t := trim_start s in
  let '(sign, rest) :=
    match t with
    | String "-"%char r => (-1, r)
    | String "+"%char r => (1, r)
    | _ => (1, t)
    end in
  match digits None rest with
  | Some n => Num (sign * n)
  | None => NaN
  end.

(** [parseInt (f, 10)] on a field; [undefined] is first turned into the
    string "undefined", which has no digit. *)
Definition parseInt (f : field) : number :=
  match f with
  | Some s => parseInt_string s
  | None => NaN
  end.

(** [Math.floor (ms / 1000)] for an integer clock reading [ms]. *)
Definition floor_div_1000 (ms : Z) : Z := ms / 1000.

End Js.

Import Js.

(** ** Requests, process environment and responses *)

(** The fields of [req.params] and [req.query] that the handlers read,
    each a string or absent.  The first five are those of the routes of
    [src/index.js], the last two those of [/rtcToken]. *)
Record request : Type := mkRequest {
  params_channel : field;
  params_uid : field;
  params_role : field;
  params_tokentype : field;
  query_expiry : field;
  query_channelName : field;
  query_uid : field
}.

(** What a handler reads from the process: the two environment variables
    (read once at start-up) and the clock, [Date.now ()] in milliseconds. *)
Record process : Type := mkProcess {
  APP_ID : field;
  APP_CERTIFICATE : field;
  Date_now : Z
}.

Section Handlers.

(** The [agora-access-token] package. *)
Variable role : Type.
Variables RtcRole_PUBLISHER RtcRole_SUBSCRIBER RtmRole_Rtm_User : role.
Variable token : Type.

(** A call into one of the three token builders, with its arguments in
    the order of the source. *)
Inductive signer_call : Type :=
| BuildTokenWithAccount
    (appID appCertificate channelName uid : value) (r : role) (expire : number)
| BuildTokenWithUid
    (appID appCertificate channelName uid : value) (r : role) (expire : number)
| BuildToken
    (appID appCertificate uid : value) (r : role) (expire : number).

(** The token a builder returns for a call.  The builders are taken to
    return: a call that throws inside the package (after which Express
    answers 500 and the handler makes no further call) is not modelled. *)
Variable sign : signer_call -> token.

Inductive event : Type :=
| Call (c : signer_call)
| ConsoleLog (appID appCertificate uid : value) (r : role) (expire : number).

(** The JSON bodies the handlers send. *)
Inductive body : Type :=
| ErrorJson (error : string)
| RtcTokenJson (rtcToken : token)
| RtmTokenJson (rtmToken : token)
| RteTokenJson (rtcToken rtmToken : token)
| TokenJson (tok : token).

Record response : Type := mkResponse {
  resp_status : Z;
  resp_headers : list (string * string);
  resp_body : body
}.

(** *** The handler monad *)

Record state : Type := mkState {
  st_status : Z;
  st_headers : list (string * string);
  st_trace : list event
}.

Definition initial : state := mkState 200 [] [].

(** A statement either goes on with a value or has sent the response,
    which ends the handler. *)
Inductive outcome (A : Type) : Type :=
| Next (a : A)
| Sent (r : response).
Arguments Next {A} a.
Arguments Sent {A} r.

Definition handler (A : Type) : Type := state -> outcome A * state.

Definition ret {A} (a : A) : handler A := fun s => (Next a, s).

Definition bind {A B} (m : handler A) (k : A -> handler B) : handler B :=
  fun s =>
    match m s with
    | (Next a, s') => k a s'
    | (Sent r, s') => (Sent r, s')
    end.

(** [resp.header (k, v)] *)
Definition header (k v : string) : handler unit :=
  fun s => (Next tt, mkState (st_status s) (st_headers s ++ [(k, v)]) (st_trace s)).

(** [resp.status (n)] *)
Definition status (n : Z) : handler unit :=
  fun s => (Next tt, mkState n (st_headers s) (st_trace s)).

(** [return resp.json (b)] *)
Definition json {A} (b : body) : handler A :=
  fun s => (Sent (mkResponse (st_status s) (st_headers s) b), s).

Definition emit (e : event) : handler unit :=
  fun s => (Next tt, mkState (st_status s) (st_headers s) (st_trace s ++ [e])).

(** A call into the package: recorded, and its token returned. *)
Definition call (c : signer_call) : handler token :=
  bind (emit (Call c)) (fun _ => ret (sign c)).

(** [if (c) { ... return ... }] *)
Definition when (c : bool) (h : handler unit) : handler unit :=
  if c then h else ret tt.

(** Running a handler from a fresh response object: the response sent
    and the trace.  Every handler ends in [json]. *)
Definition run (h : handler Empty_set) : response * list event :=
  match h initial with
  | (Sent r, s) => (r, st_trace s)
  | (Next v, _) => match v with end
  end.

Local Notation "x <- m ;; k" := (bind m (fun x => k))
  (at level 61, m at next level, right associativity).
Local Notation "m ;; k" := (bind m (fun _ => k))
  (at level 61, right associativity).

(** *** The handlers of [src/index.js] *)

(** The expiry block, the same in the three handlers:
    [let expireTime = req.query.expiry;
     if (!expireTime || expireTime === '') expireTime = 3600;
     else expireTime = parseInt (expireTime, 10);] *)
Definition expireTime (req : request) : number :=
  let expireTime := query_expiry req in
  if negb (truthy expireTime) || strict_eq expireTime ""
  then Num 3600
  else parseInt expireTime.

(** [Math.floor (Date.now () / 1000)] *)
Definition currentTime (p : process) : number :=
  Num (floor_div_1000 (Date_now p)).

(** [currentTime + expireTime] *)
Definition privilegeExpireTime (p : process) (req : request) : number :=
  add (currentTime p) (expireTime req).

Definition generateRTCToken (p : process) (req : request) : handler Empty_set :=
  header "Access-Control-Allow-Origin" "*" ;;
  let channelName := params_channel req in
  when (negb (truthy channelName))
    (status 400 ;; json (ErrorJson "channel is required")) ;;
  let uid := params_uid req in
  when (negb (truthy uid) || strict_eq uid "")
    (status 400 ;; json (ErrorJson "uid is required")) ;;
  r <- (if strict_eq (params_role req) "publisher" then ret RtcRole_PUBLISHER
        else if strict_eq (params_role req) "audience" then ret RtcRole_SUBSCRIBER
        else status 400 ;; json (ErrorJson "role is incorrect")) ;;
  let privilegeExpireTime := privilegeExpireTime p req in
  tok <- (if strict_eq (params_tokentype req) "userAccount" then
            call (BuildTokenWithAccount
                    (to_value (APP_ID p)) (to_value (APP_CERTIFICATE p))
                    (to_value channelName) (to_value uid) r privilegeExpireTime)
          else if strict_eq (params_tokentype req) "uid" then
            call (BuildTokenWithUid
                    (to_value (APP_ID p)) (to_value (APP_CERTIFICATE p))
                    (to_value channelName) (to_value uid) r privilegeExpireTime)
          else status 400 ;; json (ErrorJson "token type is invalid")) ;;
  json (RtcTokenJson tok).

Definition generateRTMToken (p : process) (req : request) : handler Empty_set :=
  header "Access-Control-Allow-Origin" "*" ;;
  let uid := params_uid req in
  when (negb (truthy uid) || strict_eq uid "")
    (status 400 ;; json (ErrorJson "uid is required")) ;;
  let r := RtmRole_Rtm_User in
  let privilegeExpireTime := privilegeExpireTime p req in
  emit (ConsoleLog (to_value (APP_ID p)) (to_value (APP_CERTIFICATE p))
          (to_value uid) r privilegeExpireTime) ;;
  tok <- call (BuildToken
                 (to_value (APP_ID p)) (to_value (APP_CERTIFICATE p))
                 (to_value uid) r privilegeExpireTime) ;;
  json (RtmTokenJson tok).

Definition generateRTEToken (p : process) (req : request) : handler Empty_set :=
  header "Access-Control-Allow-Origin" "*" ;;
  let channelName := params_channel req in
  when (negb (truthy channelName))
    (status 400 ;; json (ErrorJson "channel is required")) ;;
  let uid := params_uid req in
  when (negb (truthy uid) || strict_eq uid "")
    (status 400 ;; json (ErrorJson "uid is required")) ;;
  r <- (if strict_eq (params_role req) "publisher" then ret RtcRole_PUBLISHER
        else if strict_eq (params_role req) "audience" then ret RtcRole_SUBSCRIBER
        else status 400 ;; json (ErrorJson "role is incorrect")) ;;
  let privilegeExpireTime := privilegeExpireTime p req in
  rtcToken <- call (BuildTokenWithUid
                      (to_value (APP_ID p)) (to_value (APP_CERTIFICATE p))
                      (to_value channelName) (to_value uid) r privilegeExpireTime) ;;
  rtmToken <- call (BuildToken
                      (to_value (APP_ID p)) (to_value (APP_CERTIFICATE p))
                      (to_value uid) r privilegeExpireTime) ;;
  json (RteTokenJson rtcToken rtmToken).

(** *** The [/rtcToken] handler of the second server file *)

Definition rtcToken (p : process) (req : request) : handler Empty_set :=
  let channelName := query_channelName req in
  when (negb (truthy channelName))
    (status 400 ;; json (ErrorJson "channelName is required")) ;;
  (* [req.query.uid || 0] *)
  let uid := if truthy (query_uid req) then to_value (query_uid req)
             else Number (Num 0) in
  let r := RtcRole_PUBLISHER in
  let expireTime := Num 3600 in
  let privilegeExpiredTs := add (currentTime p) expireTime in
  when (negb (truthy (APP_ID p)) || negb (truthy (APP_CERTIFICATE p)))
    (status 500 ;; json (ErrorJson "APP_ID or APP_CERTIFICATE missing")) ;;
  tok <- call (BuildTokenWithUid
                 (to_value (APP_ID p)) (to_value (APP_CERTIFICATE p))
                 (to_value channelName) uid r privilegeExpiredTs) ;;
  json (TokenJson tok).

(** ** Reading a run: calls made, artifacts sent, error kinds *)

(** The calls into the token builders, in order. *)
Fixpoint signer_calls (t : list event) : list signer_call :=
  match t with
  | Call c :: t' => c :: signer_calls t'
  | ConsoleLog _ _ _ _ _ :: t' => signer_calls t'
  | [] => []
  end.

(** The privilege expiry, the role and the subject a call carries. *)
Definition call_expire (c : signer_call) : number :=
  match c with
  | BuildTokenWithAccount _ _ _ _ _ e
  | BuildTokenWithUid _ _ _ _ _ e
  | BuildToken _ _ _ _ e => e
  end.

Definition call_role (c : signer_call) : role :=
  match c with
  | BuildTokenWithAccount _ _ _ _ r _
  | BuildTokenWithUid _ _ _ _ r _
  | BuildToken _ _ _ r _ => r
  end.

Definition call_uid (c : signer_call) : value :=
  match c with
  | BuildTokenWithAccount _ _ _ u _ _
  | BuildTokenWithUid _ _ _ u _ _
  | BuildToken _ _ u _ _ => u
  end.

(** The calls of a trace into the messaging builder. *)
Definition is_messaging_call (c : signer_call) : bool :=
  match c with
  | BuildToken _ _ _ _ _ => true
  | _ => false
  end.

Definition messaging_calls (t : list event) : list signer_call :=
  filter is_messaging_call (signer_calls t).

(** The token artifacts a response carries. *)
Definition artifacts (r : response) : list token :=
  match resp_body r with
  | ErrorJson _ => []
  | RtcTokenJson t | RtmTokenJson t | TokenJson t => [t]
  | RteTokenJson t1 t2 => [t1; t2]
  end.

(** The error kinds of the specification. *)
Inductive TokenError : Type :=
| MissingChannel
| MissingSubject
| InvalidRole
| InvalidTokenType
| MissingCredential.

(** The error kind a response reports, read off its status and message:
    the four client-input errors are sent with status 400, the
    credential error with status 500. *)
Definition error_kind (r : response) : option TokenError :=
  match resp_body r with
  | ErrorJson msg =>
      if resp_status r =? 400 then
        if ((msg =? "channel is required") || (msg =? "channelName is required"))%string
        then Some MissingChannel
        else if (msg =? "uid is required")%string then Some MissingSubject
        else if (msg =? "role is incorrect")%string then Some InvalidRole
        else if (msg =? "token type is invalid")%string then Some InvalidTokenType
        else None
      else if resp_status r =? 500 then
        if (msg =? "APP_ID or APP_CERTIFICATE missing")%string
        then Some MissingCredential
        else None
      else None
  | _ => None
  end.

(** A client-input error is one sent with a 4xx status. *)
Definition client_error (r : response) : bool :=
  (400 <=? resp_status r) && (resp_status r <? 500).

(** *** The preconditions of the specification *)

(** A field is present when it is neither absent nor the empty string. *)
Definition present (f : field) : bool := truthy f.

(** The recognised media roles. *)
Definition media_role (f : field) : option role :=
  if strict_eq f "publisher" then Some RtcRole_PUBLISHER
  else if strict_eq f "audience" then Some RtcRole_SUBSCRIBER
  else None.

Definition valid_role (f : field) : bool :=
  strict_eq f "publisher" || strict_eq f "audience".

Definition valid_tokentype (f : field) : bool :=
  strict_eq f "userAccount" || strict_eq f "uid".

(** The signing credential is configured when both variables are set. *)
Definition configured (p : process) : bool :=
  truthy (APP_ID p) && truthy (APP_CERTIFICATE p).

(** The first violated precondition of a media request, in the order of
    the specification: channel, then subject, then role, then token
    type. *)
Definition first_violation (req : request) : option TokenError :=
  if negb (present (params_channel req)) then Some MissingChannel
  else if negb (present (params_uid req)) then Some MissingSubject
  else if negb (valid_role (params_role req)) then Some InvalidRole
  else if negb (valid_tokentype (params_tokentype req)) then Some InvalidTokenType
  else None.

(** *** The middleware and the routes of [src/index.js] *)

(** [nocache]: three response headers, then [next ()]. *)
Definition nocache : handler unit :=
  header "Cache-Control" "private, no-cache, no-store, must-revalidate" ;;
  header "Expires" "-1" ;;
  header "Pragma" "no-cache".

(** [app.get (path, nocache, h)]: the middleware runs first and hands
    over to the handler [h]. *)
Definition route (h : handler Empty_set) : handler Empty_set :=
  nocache ;; h.

(** The console lines of a trace. *)
Definition console_logs (t : list event) : list event :=
  filter (fun e => match e with ConsoleLog _ _ _ _ _ => true | Call _ => false end) t.

End Handlers.

Arguments BuildTokenWithAccount {role} _ _ _ _ _ _.
Arguments BuildTokenWithUid {role} _ _ _ _ _ _.
Arguments BuildToken {role} _ _ _ _ _.
Arguments Call {role} c.
Arguments ConsoleLog {role} _ _ _ _ _.
Arguments ErrorJson {token} error.
Arguments RtcTokenJson {token} rtcToken.
Arguments RtmTokenJson {token} rtmToken.
Arguments RteTokenJson {token} rtcToken rtmToken.
Arguments TokenJson {token} tok.
Arguments mkResponse {token} _ _ _.
Arguments resp_status {token} r.
Arguments resp_headers {token} r.
Arguments resp_body {token} r.
Arguments run {role token} h.
Arguments generateRTCToken {role} _ _ {token} sign p req.
Arguments generateRTMToken {role} _ {token} sign p req.
Arguments generateRTEToken {role} _ _ {token} sign p req.
Arguments rtcToken {role} _ {token} sign p req.
Arguments signer_calls {role} t.
Arguments messaging_calls {role} t.
Arguments call_expire {role} c.
Arguments call_role {role} c.
Arguments call_uid {role} c.
Arguments artifacts {token} r.
Arguments error_kind {token} r.
Arguments client_error {token} r.
Arguments media_role {role} _ _ f.

(** [req] with its token type selector replaced. *)
Definition with_tokentype (req : request) (tt : field) : request :=
  mkRequest (params_channel req) (params_uid req) (params_role req) tt
    (query_expiry req) (query_channelName req) (query_uid req).

(** The builder calls the three handlers of [src/index.js] make on one
    request, the media handler first, then messaging, then combined. *)
Definition index_calls {role token : Type} (publisher subscriber rtm_user : role)
    (sign : signer_call role -> token) (p : process) (req : request)
    : list (signer_call role) :=
  signer_calls (snd (run (generateRTCToken publisher subscriber sign p req)))
  ++ signer_calls (snd (run (generateRTMToken rtm_user sign p req)))
  ++ signer_calls (snd (run (generateRTEToken publisher subscriber sign p req))).

(** The header every handler of [src/index.js] sets first. *)
Definition allow_origin : list (string * string) :=
  [("Access-Control-Allow-Origin", "*")].

(** The privilege window of the specification: [expiresAt = issuedAt + ttl]
    for a positive [ttl]. *)
Definition window_invariant (issuedAt : Z) (expiresAt : number) : Prop :=
  exists ttl : Z, 0 < ttl /\ expiresAt = Num (issuedAt + ttl).

Arguments nocache {role token} _.
Arguments route {role token} h _.
Arguments console_logs {role} t.
Arguments is_messaging_call {role} c.

(** The headers [nocache] sets, in its order. *)
Definition nocache_headers : list (string * string) :=
  [("Cache-Control", "private, no-cache, no-store, must-revalidate");
   ("Expires", "-1");
   ("Pragma", "no-cache")].

(** A response with the headers of [nocache] in front of its own. *)
Definition behind_nocache {token : Type} (r : response token) : response token :=
  mkResponse (resp_status r) (nocache_headers ++ resp_headers r) (resp_body r).

(** [req] with its [expiry] query field replaced. *)
Definition with_expiry (req : request) (e : field) : request :=
  mkRequest (params_channel req) (params_uid req) (params_role req)
    (params_tokentype req) e (query_channelName req) (query_uid req).

(** The decimal numeral of an integer, as [String (t)] writes it: a minus
    sign for a negative number, no leading zero. *)
Definition decimal (t : Z) : string :=
  DecimalString.NilZero.string_of_int (Z.to_int t).

(** A string of (ASCII) white space only. *)
Fixpoint all_space (s : string) : bool :=
  match s with
  | String c r => is_space c && all_space r
  | EmptyString => true
  end.

(** A string that does not go on with a decimal digit. *)
Definition starts_nondigit (s : string) : bool :=
  match s with
  | String c _ => match digit_of c with Some _ => false | None => true end
  | EmptyString => true
  end.

(** A string in which [parseInt] finds no integer: after the leading
    white space it is empty, or a sign not followed by a digit, or it
    starts with an ASCII character that is not a digit. *)
Definition no_integer (s : string) : bool :=
  match trim_start s with
  | EmptyString => true
  | String c r =>
      if ((c =? "-") || (c =? "+"))%char then starts_nondigit r
      else (nat_of_ascii c <? 128)%nat && starts_nondigit (String c r)
  end.

(** [Number.isSafeInteger]: the integers a double holds exactly. *)
Definition safe_integer (z : Z) : bool := Z.abs z <=? 2 ^ 53 - 1.

(** An expiry whose first character after the ASCII white space, if any,
    is an ASCII character: there [parseInt] skips exactly the white space
    that [trim_start] skips. *)
Definition ascii_led (f : field) : bool :=
  match f with
  | Some s =>
      match trim_start s with
      | String c _ => (nat_of_ascii c <? 128)%nat
      | EmptyString => true
      end
  | None => true
  end.

(** The ttl of a request, when it is a number, and the expiry computed
    from it are safe integers: there the additions of the source are
    exact. *)
Definition safe_window (p : process) (req : request) : bool :=
  match expireTime req with
  | Num ttl => safe_integer ttl && safe_integer (floor_div_1000 (Date_now p) + ttl)
  | NaN => true
  end.

(** A run either issued tokens (status 200, no error, at least one
    builder call and one artifact) or rejected the request (status 400, a
    client-input error, empty trace, no artifact). *)
Definition issued_or_rejected {role token : Type}
    (out : response token * list (event role)) : Prop :=
  (resp_status (fst out) = 200 /\
   error_kind (fst out) = None /\
   artifacts (fst out) <> [] /\
   signer_calls (snd out) <> [])
  \/
  (resp_status (fst out) = 400 /\
   (exists k, error_kind (fst out) = Some k /\ k <> MissingCredential) /\
   artifacts (fst out) = [] /\
   snd out = []).

(** ** A symbolic instance of the package, to run the handlers *)

(** Modelled from the spec: the [Role] enum of the data model,
    {Publisher, Subscriber, MessagingUser}, standing for the constants
    [RtcRole.PUBLISHER], [RtcRole.SUBSCRIBER] and [RtmRole.Rtm_User] of the
    [agora-access-token] package, which the repository imports and does
    not define. *)
Inductive Role : Type :=
| Publisher
| Subscriber
| MessagingUser.

(** The handlers never look inside a token: symbolically, a token is the
    builder call that made it. *)
Definition Token : Type := signer_call Role.

Definition symbolic_sign (c : signer_call Role) : Token := c.

Definition rtc_handler (p : process) (req : request) : response Token * list (event Role) :=
  run (generateRTCToken Publisher Subscriber symbolic_sign p req).

Definition rtm_handler (p : process) (req : request) : response Token * list (event Role) :=
  run (generateRTMToken MessagingUser symbolic_sign p req).

Definition rte_handler (p : process) (req : request) : response Token * list (event Role) :=
  run (generateRTEToken Publisher Subscriber symbolic_sign p req).

Definition rtcToken_handler (p : process) (req : request) : response Token * list (event Role) :=
  run (rtcToken Publisher symbolic_sign p req).

(** Sample inputs: a process with and without its credential, and
    requests for the routes of the two servers. *)
Definition configured_process : process :=
  mkProcess (Some "app-id") (Some "app-certificate") 1700000000123.

Definition unconfigured_process : process :=
  mkProcess None None 1700000000123.

(** [APP_ID=] and [APP_CERTIFICATE=] in the environment: both variables
    are the empty string. *)
Definition empty_credential_process : process :=
  mkProcess (Some "") (Some "") 1700000000123.

Definition media_request (role_ tokentype_ : string) (expiry : field) : request :=
  mkRequest (Some "room1") (Some "42") (Some role_) (Some tokentype_) expiry None None.

Definition secondary_request (channelName uid : field) : request :=
  mkRequest None None None None None channelName uid.

(** ** Closed forms of the four handlers *)

Ltac run_handler :=
  cbv [run generateRTCToken generateRTMToken generateRTEToken rtcToken
       bind when header status json emit call ret initial];
  cbn [negb orb andb fst snd st_status st_headers st_trace app].

Ltac branch :=
  match goal with
  | |- context [if ?b then _ else _] =>
      destruct b eqn:?; cbn [negb orb andb fst snd st_status st_headers st_trace app]
  end.

Section Properties.

Variable role : Type.
Variables RtcRole_PUBLISHER RtcRole_SUBSCRIBER RtmRole_Rtm_User : role.
Variable token : Type.
Variable sign : signer_call role -> token.

Local Abbreviation RTC := (generateRTCToken RtcRole_PUBLISHER RtcRole_SUBSCRIBER sign).
Local Abbreviation RTM := (generateRTMToken RtmRole_Rtm_User sign).
Local Abbreviation RTE := (generateRTEToken RtcRole_PUBLISHER RtcRole_SUBSCRIBER sign).
Local Abbreviation RTCTOKEN := (rtcToken RtcRole_PUBLISHER sign).
Local Abbreviation resolve := (media_role RtcRole_PUBLISHER RtcRole_SUBSCRIBER).

Lemma strict_eq_empty_not_truthy (f : field) :
  negb (truthy f) || strict_eq f "" = negb (truthy f).
Proof.
  destruct f as [s|]; simpl; [|reflexivity].
  destruct (s =? "")%string; reflexivity.
Qed.

Lemma strict_eq_sound (f : field) (lit : string) :
  strict_eq f lit = true <-> f = Some lit.
Proof.
  destruct f as [s|]; simpl.
  - rewrite String.eqb_eq. split; congruence.
  - split; discriminate.
Qed.

Lemma valid_role_resolve (f : field) :
  valid_role f = true <-> exists r, resolve f = Some r.
Proof.
  unfold valid_role, media_role.
  destruct (strict_eq f "publisher"), (strict_eq f "audience"); simpl;
    split; intros H; try reflexivity; try discriminate; eauto;
    destruct H as [r H]; discriminate.
Qed.

Lemma run_generateRTCToken (p : process) (req : request) :
  run (RTC p req) =
    if negb (present (params_channel req)) then
      (mkResponse 400 allow_origin (ErrorJson "channel is required"), [])
    else if negb (present (params_uid req)) then
      (mkResponse 400 allow_origin (ErrorJson "uid is required"), [])
    else match resolve (params_role req) with
    | None => (mkResponse 400 allow_origin (ErrorJson "role is incorrect"), [])
    | Some r =>
        if strict_eq (params_tokentype req) "userAccount" then
          let c := BuildTokenWithAccount
                     (to_value (APP_ID p)) (to_value (APP_CERTIFICATE p))
                     (to_value (params_channel req)) (to_value (params_uid req))
                     r (privilegeExpireTime p req) in
          (mkResponse 200 allow_origin (RtcTokenJson (sign c)), [Call c])
        else if strict_eq (params_tokentype req) "uid" then
          let c := BuildTokenWithUid
                     (to_value (APP_ID p)) (to_value (APP_CERTIFICATE p))
                     (to_value (params_channel req)) (to_value (params_uid req))
                     r (privilegeExpireTime p req) in
          (mkResponse 200 allow_origin (RtcTokenJson (sign c)), [Call c])
        else (mkResponse 400 allow_origin (ErrorJson "token type is invalid"), [])
    end.
Proof.
  run_handler. rewrite strict_eq_empty_not_truthy.
  unfold present, media_role, allow_origin.
  repeat (branch; try reflexivity).
Qed.

Lemma run_generateRTMToken (p : process) (req : request) :
  run (RTM p req) =
    if negb (present (params_uid req)) then
      (mkResponse 400 allow_origin (ErrorJson "uid is required"), [])
    else
      let c := BuildToken
                 (to_value (APP_ID p)) (to_value (APP_CERTIFICATE p))
                 (to_value (params_uid req))
                 RtmRole_Rtm_User (privilegeExpireTime p req) in
      (mkResponse 200 allow_origin (RtmTokenJson (sign c)),
       [ConsoleLog (to_value (APP_ID p)) (to_value (APP_CERTIFICATE p))
           (to_value (params_uid req)) RtmRole_Rtm_User (privilegeExpireTime p req);
        Call c]).
Proof.
  run_handler. rewrite strict_eq_empty_not_truthy.
  unfold present, allow_origin.
  repeat (branch; try reflexivity).
Qed.

Lemma run_generateRTEToken (p : process) (req : request) :
  run (RTE p req) =
    if negb (present (params_channel req)) then
      (mkResponse 400 allow_origin (ErrorJson "channel is required"), [])
    else if negb (present (params_uid req)) then
      (mkResponse 400 allow_origin (ErrorJson "uid is required"), [])
    else match resolve (params_role req) with
    | None => (mkResponse 400 allow_origin (ErrorJson "role is incorrect"), [])
    | Some r =>
        let c1 := BuildTokenWithUid
                    (to_value (APP_ID p)) (to_value (APP_CERTIFICATE p))
                    (to_value (params_channel req)) (to_value (params_uid req))
                    r (privilegeExpireTime p req) in
        let c2 := BuildToken
                    (to_value (APP_ID p)) (to_value (APP_CERTIFICATE p))
                    (to_value (params_uid req))
                    r (privilegeExpireTime p req) in
        (mkResponse 200 allow_origin (RteTokenJson (sign c1) (sign c2)),
         [Call c1; Call c2])
    end.
Proof.
  run_handler. rewrite strict_eq_empty_not_truthy.
  unfold present, media_role, allow_origin.
  repeat (branch; try reflexivity).
Qed.

Lemma run_rtcToken (p : process) (req : request) :
  run (RTCTOKEN p req) =
    if negb (present (query_channelName req)) then
      (mkResponse 400 [] (ErrorJson "channelName is required"), [])
    else if negb (configured p) then
      (mkResponse 500 [] (ErrorJson "APP_ID or APP_CERTIFICATE missing"), [])
    else
      let c := BuildTokenWithUid
                 (to_value (APP_ID p)) (to_value (APP_CERTIFICATE p))
                 (to_value (query_channelName req))
                 (if present (query_uid req) then to_value (query_uid req)
                  else Number (Num 0))
                 RtcRole_PUBLISHER
                 (Num (floor_div_1000 (Date_now p) + 3600)) in
      (mkResponse 200 [] (TokenJson (sign c)), [Call c]).
Proof.
  run_handler. unfold present, configured, currentTime, add.
  destruct (truthy (query_channelName req)); cbn; [|reflexivity].
  destruct (truthy (APP_ID p)), (truthy (APP_CERTIFICATE p)); reflexivity.
Qed.

(** *** Shared facts about the runs *)

Lemma resolve_invalid (f : field) :
  valid_role f = false -> resolve f = None.
Proof.
  unfold valid_role, media_role.
  destruct (strict_eq f "publisher"), (strict_eq f "audience");
    simpl; congruence.
Qed.

Lemma resolve_valid (f : field) :
  valid_role f = true ->
  resolve f = Some (if strict_eq f "publisher" then RtcRole_PUBLISHER
                    else RtcRole_SUBSCRIBER).
Proof.
  unfold valid_role, media_role.
  destruct (strict_eq f "publisher"), (strict_eq f "audience");
    simpl; congruence.
Qed.

(** Every artifact sent is the token of a recorded builder call, and
    nothing else is. *)
Lemma rtc_artifacts_signed (p : process) (req : request) :
  artifacts (fst (run (RTC p req))) = map sign (signer_calls (snd (run (RTC p req)))).
Proof.
  rewrite run_generateRTCToken.
  destruct (present (params_channel req)), (present (params_uid req)),
    (resolve (params_role req)),
    (strict_eq (params_tokentype req) "userAccount"),
    (strict_eq (params_tokentype req) "uid"); reflexivity.
Qed.

Lemma rtm_artifacts_signed (p : process) (req : request) :
  artifacts (fst (run (RTM p req))) = map sign (signer_calls (snd (run (RTM p req)))).
Proof.
  rewrite run_generateRTMToken.
  destruct (present (params_uid req)); reflexivity.
Qed.

Lemma rte_artifacts_signed (p : process) (req : request) :
  artifacts (fst (run (RTE p req))) = map sign (signer_calls (snd (run (RTE p req)))).
Proof.
  rewrite run_generateRTEToken.
  destruct (present (params_channel req)), (present (params_uid req)),
    (resolve (params_role req)); reflexivity.
Qed.

(** Every builder call of the three handlers carries the expiry computed
    from the request. *)
Lemma index_calls_expire (p : process) (req : request) (c : signer_call role) :
  In c (index_calls RtcRole_PUBLISHER RtcRole_SUBSCRIBER RtmRole_Rtm_User sign p req) ->
  call_expire c = privilegeExpireTime p req.
Proof.
  unfold index_calls.
  rewrite run_generateRTCToken, run_generateRTMToken, run_generateRTEToken.
  destruct (present (params_channel req)), (present (params_uid req)),
    (resolve (params_role req)),
    (strict_eq (params_tokentype req) "userAccount"),
    (strict_eq (params_tokentype req) "uid");
    simpl; intros H;
    repeat match goal with
      | H : _ \/ _ |- _ => destruct H
      | H : False |- _ => destruct H
      | H : _ = c |- _ => subst c; reflexivity
      end.
Qed.

(** The messaging handler always hands [RtmRole.Rtm_User] to the
    messaging builder. *)
Lemma rtm_role_fixed (p : process) (req : request) (c : signer_call role) :
  In c (messaging_calls (snd (run (RTM p req)))) ->
  call_role c = RtmRole_Rtm_User.
Proof.
  rewrite run_generateRTMToken.
  destruct (present (params_uid req)); simpl; intros H;
    [destruct H as [<-|[]]; reflexivity | destruct H].
Qed.

(** The combined handler hands the media role it resolved to the
    messaging builder. *)
Lemma rte_messaging_role (p : process) (req : request) :
  present (params_channel req) = true ->
  present (params_uid req) = true ->
  valid_role (params_role req) = true ->
  map call_role (messaging_calls (snd (run (RTE p req)))) =
    [if strict_eq (params_role req) "publisher" then RtcRole_PUBLISHER
     else RtcRole_SUBSCRIBER].
Proof.
  intros Hc Hu Hr. rewrite run_generateRTEToken, Hc, Hu, (resolve_valid _ Hr).
  reflexivity.
Qed.

(** No handler of [src/index.js] ever reports the credential error. *)
Lemma index_never_reports_MissingCredential (p : process) (req : request) :
  error_kind (fst (run (RTC p req))) <> Some MissingCredential /\
  error_kind (fst (run (RTM p req))) <> Some MissingCredential /\
  error_kind (fst (run (RTE p req))) <> Some MissingCredential.
Proof.
  rewrite run_generateRTCToken, run_generateRTMToken, run_generateRTEToken.
  destruct (present (params_channel req)), (present (params_uid req)),
    (resolve (params_role req)),
    (strict_eq (params_tokentype req) "userAccount"),
    (strict_eq (params_tokentype req) "uid");
    repeat split; discriminate.
Qed.

(** The secondary handler checks the credential before it signs. *)
Lemma rtcToken_checks_credential (p : process) (req : request) :
  present (query_channelName req) = true ->
  configured p = false ->
  error_kind (fst (run (RTCTOKEN p req))) = Some MissingCredential /\
  client_error (fst (run (RTCTOKEN p req))) = false /\
  signer_calls (snd (run (RTCTOKEN p req))) = [].
Proof.
  intros Hc Hp. rewrite run_rtcToken, Hc, Hp. repeat split.
Qed.

(** *** The claims *)

(** C3 (amended): for every ttl input that is omitted or empty, the
    computed expiry equals issuedAt + 3600, where issuedAt is the clock
    reading truncated to whole seconds; every builder call of the three
    handlers of [src/index.js] carries that expiry. *)
Theorem default_expiry_when_omitted_or_empty (p : process) (req : request) :
  present (query_expiry req) = false ->
  privilegeExpireTime p req = Num (floor_div_1000 (Date_now p) + 3600) /\
  forall c,
    In c (index_calls RtcRole_PUBLISHER RtcRole_SUBSCRIBER RtmRole_Rtm_User sign p req) ->
    call_expire c = Num (floor_div_1000 (Date_now p) + 3600).
Proof.
  intros H.
  assert (E : privilegeExpireTime p req = Num (floor_div_1000 (Date_now p) + 3600)).
  { unfold privilegeExpireTime, expireTime, currentTime.
    rewrite strict_eq_empty_not_truthy. unfold present in H. rewrite H.
    reflexivity. }
  split; [exact E|].
  intros c Hin. rewrite (index_calls_expire _ _ _ Hin). exact E.
Qed.

(** C4: combined-token composition fails atomically.  When the channel,
    the subject or the role of a combined request is invalid, the
    handler answers with the error of that check, calls neither the RTC
    nor the RTM builder, and sends no artifact. *)
Theorem combined_fails_atomically (p : process) (req : request) :
  present (params_channel req) && present (params_uid req)
    && valid_role (params_role req) = false ->
  (exists k, error_kind (fst (run (RTE p req))) = Some k /\
             In k [MissingChannel; MissingSubject; InvalidRole]) /\
  signer_calls (snd (run (RTE p req))) = [] /\
  snd (run (RTE p req)) = [] /\
  artifacts (fst (run (RTE p req))) = [].
Proof.
  intros H. rewrite run_generateRTEToken.
  destruct (present (params_channel req)); cbn [negb andb] in *.
  - destruct (present (params_uid req)); cbn [negb andb] in *.
    + rewrite (resolve_invalid _ H).
      repeat split. exists InvalidRole. simpl. split; [reflexivity|tauto].
    + repeat split. exists MissingSubject. simpl. split; [reflexivity|tauto].
  - repeat split. exists MissingChannel. simpl. split; [reflexivity|tauto].
Qed.

(** C5: on a valid media request (channel and subject present, role
    recognised) the selector "userAccount" makes exactly one builder
    call, to sign-by-account; "uid" makes exactly one, to sign-by-uid;
    any other selector fails with InvalidTokenType and no builder call. *)
Theorem tokentype_selects_signer (p : process) (req : request) :
  present (params_channel req) = true ->
  present (params_uid req) = true ->
  valid_role (params_role req) = true ->
  exists r, resolve (params_role req) = Some r /\
  (params_tokentype req = Some "userAccount" ->
     signer_calls (snd (run (RTC p req))) =
       [BuildTokenWithAccount
          (to_value (APP_ID p)) (to_value (APP_CERTIFICATE p))
          (to_value (params_channel req)) (to_value (params_uid req))
          r (privilegeExpireTime p req)] /\
     error_kind (fst (run (RTC p req))) = None) /\
  (params_tokentype req = Some "uid" ->
     signer_calls (snd (run (RTC p req))) =
       [BuildTokenWithUid
          (to_value (APP_ID p)) (to_value (APP_CERTIFICATE p))
          (to_value (params_channel req)) (to_value (params_uid req))
          r (privilegeExpireTime p req)] /\
     error_kind (fst (run (RTC p req))) = None) /\
  (valid_tokentype (params_tokentype req) = false ->
     error_kind (fst (run (RTC p req))) = Some InvalidTokenType /\
     signer_calls (snd (run (RTC p req))) = [] /\
     artifacts (fst (run (RTC p req))) = []).
Proof.
  intros Hc Hu Hr.
  rewrite run_generateRTCToken, Hc, Hu, (resolve_valid _ Hr). cbn [negb].
  eexists; split; [reflexivity|]. repeat split.
  - rewrite H. reflexivity.
  - rewrite H. reflexivity.
  - rewrite H. reflexivity.
  - rewrite H. reflexivity.
  - unfold valid_tokentype in H. apply orb_false_iff in H as [-> ->]. reflexivity.
  - unfold valid_tokentype in H. apply orb_false_iff in H as [-> ->]. reflexivity.
  - unfold valid_tokentype in H. apply orb_false_iff in H as [-> ->]. reflexivity.
Qed.

(** C6: on a media request with channel and subject present, a raw role
    outside {"publisher", "audience"} fails with InvalidRole and no
    builder call; "publisher" is signed as the Publisher role and
    "audience" as the Subscriber role. *)
Theorem media_role_resolution (p : process) (req : request) :
  present (params_channel req) = true ->
  present (params_uid req) = true ->
  (valid_role (params_role req) = false ->
     error_kind (fst (run (RTC p req))) = Some InvalidRole /\
     signer_calls (snd (run (RTC p req))) = [] /\
     artifacts (fst (run (RTC p req))) = []) /\
  (params_role req = Some "publisher" ->
     resolve (params_role req) = Some RtcRole_PUBLISHER /\
     map call_role (signer_calls (snd (run (RTC p req)))) =
       if valid_tokentype (params_tokentype req) then [RtcRole_PUBLISHER] else []) /\
  (params_role req = Some "audience" ->
     resolve (params_role req) = Some RtcRole_SUBSCRIBER /\
     map call_role (signer_calls (snd (run (RTC p req)))) =
       if valid_tokentype (params_tokentype req) then [RtcRole_SUBSCRIBER] else []).
Proof.
  intros Hc Hu. rewrite run_generateRTCToken, Hc, Hu. cbn [negb].
  unfold valid_tokentype. repeat split.
  - rewrite (resolve_invalid _ H). reflexivity.
  - rewrite (resolve_invalid _ H). reflexivity.
  - rewrite (resolve_invalid _ H). reflexivity.
  - rewrite H. reflexivity.
  - rewrite H. cbn.
    destruct (strict_eq (params_tokentype req) "userAccount"),
      (strict_eq (params_tokentype req) "uid"); reflexivity.
  - rewrite H. reflexivity.
  - rewrite H. cbn.
    destruct (strict_eq (params_tokentype req) "userAccount"),
      (strict_eq (params_tokentype req) "uid"); reflexivity.
Qed.

(** C7: media-token composition validates in the fixed order channel,
    subject, role, token type.  The error returned is the one of the
    first violated precondition in that order, whatever else is wrong
    with the request, and then no builder is called; with no violation
    no error is returned and one builder call is made. *)
Theorem media_validation_order (p : process) (req : request) :
  match first_violation req with
  | Some k =>
      error_kind (fst (run (RTC p req))) = Some k /\
      signer_calls (snd (run (RTC p req))) = [] /\
      artifacts (fst (run (RTC p req))) = []
  | None =>
      error_kind (fst (run (RTC p req))) = None /\
      List.length (signer_calls (snd (run (RTC p req)))) = 1%nat
  end.
Proof.
  rewrite run_generateRTCToken. unfold first_violation.
  destruct (present (params_channel req)); cbn [negb]; [|repeat split].
  destruct (present (params_uid req)); cbn [negb]; [|repeat split].
  destruct (valid_role (params_role req)) eqn:Hr; cbn [negb].
  - rewrite (resolve_valid _ Hr). unfold valid_tokentype.
    destruct (strict_eq (params_tokentype req) "userAccount"),
      (strict_eq (params_tokentype req) "uid"); repeat split.
  - rewrite (resolve_invalid _ Hr). repeat split.
Qed.

(** C8 (amended): for every token that is composed, the privilege window
    satisfies expiresAt = issuedAt + ttl, where ttl is what [parseInt]
    reads from the caller-supplied expiry, or the 3600-second default
    when the expiry is omitted or empty.  ttl is not required to be
    positive, and when [parseInt] reads no integer, ttl and expiresAt are
    [NaN].  Stated for an expiry that is ASCII-led and for a ttl and an
    expiry in the range of safe integers, and of every builder call the
    three handlers of [src/index.js] make. *)
Theorem window_of_composed_token
    (p : process) (req : request) (c : signer_call role) :
  ascii_led (query_expiry req) = true ->
  safe_window p req = true ->
  In c (index_calls RtcRole_PUBLISHER RtcRole_SUBSCRIBER RtmRole_Rtm_User sign p req) ->
  (present (query_expiry req) = false /\
   call_expire c = Num (floor_div_1000 (Date_now p) + 3600))
  \/
  (exists ttl : Z,
     present (query_expiry req) = true /\
     parseInt (query_expiry req) = Num ttl /\
     call_expire c = Num (floor_div_1000 (Date_now p) + ttl))
  \/
  (present (query_expiry req) = true /\
   parseInt (query_expiry req) = NaN /\
   call_expire c = NaN).
Proof.
  intros _ _ Hin. rewrite (index_calls_expire _ _ _ Hin).
  unfold privilegeExpireTime, currentTime, expireTime.
  rewrite strict_eq_empty_not_truthy. unfold present.
  destruct (truthy (query_expiry req)); cbn [negb].
  - destruct (parseInt (query_expiry req)) as [ttl|].
    + right. left. exists ttl. repeat split.
    + right. right. repeat split.
  - left. split; reflexivity.
Qed.

(** C9: combined-token composition never fails with InvalidTokenType.
    On a combined request whose channel, subject and role are valid the
    token type selector is ignored: whatever it is replaced by, the run
    is the same, it is no error, and the RTC half is signed by the
    sign-by-uid builder. *)
Theorem combined_ignores_tokentype (p : process) (req : request) :
  error_kind (fst (run (RTE p req))) <> Some InvalidTokenType /\
  (present (params_channel req) = true ->
   present (params_uid req) = true ->
   valid_role (params_role req) = true ->
   forall tt : field,
     run (RTE p (with_tokentype req tt)) = run (RTE p req) /\
     error_kind (fst (run (RTE p (with_tokentype req tt)))) = None /\
     exists r, resolve (params_role req) = Some r /\
       signer_calls (snd (run (RTE p (with_tokentype req tt)))) =
         [BuildTokenWithUid
            (to_value (APP_ID p)) (to_value (APP_CERTIFICATE p))
            (to_value (params_channel req)) (to_value (params_uid req))
            r (privilegeExpireTime p req);
          BuildToken
            (to_value (APP_ID p)) (to_value (APP_CERTIFICATE p))
            (to_value (params_uid req))
            r (privilegeExpireTime p req)]).
Proof.
  split.
  - rewrite run_generateRTEToken.
    destruct (present (params_channel req)), (present (params_uid req)),
      (resolve (params_role req)); discriminate.
  - intros Hc Hu Hr tt.
    rewrite !run_generateRTEToken. cbn [with_tokentype params_channel params_uid params_role].
    change (privilegeExpireTime p (with_tokentype req tt))
      with (privilegeExpireTime p req).
    rewrite Hc, Hu, (resolve_valid _ Hr). cbn [negb].
    repeat split. eexists; split; reflexivity.
Qed.

(** C10 (amended): the secondary endpoint has no MissingSubject path.
    On a request with a non-empty channel name and no uid it signs,
    when the signing credential is configured, by sign-by-uid with the
    uid defaulted to 0, the role fixed to Publisher and a fixed
    3600-second ttl. *)
Theorem secondary_defaults_uid (p : process) (req : request) :
  present (query_channelName req) = true ->
  present (query_uid req) = false ->
  error_kind (fst (run (RTCTOKEN p req))) <> Some MissingSubject /\
  (configured p = true ->
     let c := BuildTokenWithUid
                (to_value (APP_ID p)) (to_value (APP_CERTIFICATE p))
                (to_value (query_channelName req)) (Number (Num 0))
                RtcRole_PUBLISHER
                (Num (floor_div_1000 (Date_now p) + 3600)) in
     snd (run (RTCTOKEN p req)) = [Call c] /\
     fst (run (RTCTOKEN p req)) = mkResponse 200 [] (TokenJson (sign c))).
Proof.
  intros Hc Hu. rewrite run_rtcToken, Hc, Hu. cbn [negb]. split.
  - destruct (configured p); discriminate.
  - intros ->. split; reflexivity.
Qed.

End Properties.

(** ** The handlers on concrete requests *)

Lemma Num_inj (a b : Z) : Num a = Num b -> a = b.
Proof. intros H. injection H as H. exact H. Qed.


(** C1 at the request [/rte/room1/audience/uid/42]: the combined handler
    hands the media role it resolved, Subscriber, to the messaging
    builder, where the messaging handler hands it the fixed messaging
    role. *)
Theorem combined_messaging_role_at_audience :
  let p := configured_process in
  let req := media_request "audience" "uid" None in
  messaging_calls (snd (rte_handler p req)) =
    [BuildToken (Str "app-id") (Str "app-certificate") (Str "42")
       Subscriber (Num 1700003600)] /\
  map call_role (messaging_calls (snd (rte_handler p req))) <> [MessagingUser] /\
  map call_role (messaging_calls (snd (rtm_handler p req))) = [MessagingUser].
Proof.
  cbv zeta. split; [reflexivity|]. split; [|reflexivity].
  intros H. vm_compute in H. discriminate H.
Qed.

(** C2 in a process whose two credential variables are the empty string:
    on valid requests the three handlers of [src/index.js] report no
    error and sign with the empty credential.  With the two variables
    unset the builder is entered all the same, first thing after the
    input checks, with both credential arguments undefined. *)
Theorem index_signs_without_credential :
  let req := media_request "publisher" "uid" None in
  (let p := empty_credential_process in
   configured p = false /\
   (error_kind (fst (rtc_handler p req)) = None /\
    signer_calls (snd (rtc_handler p req)) =
      [BuildTokenWithUid (Str "") (Str "") (Str "room1") (Str "42")
         Publisher (Num 1700003600)]) /\
   (error_kind (fst (rtm_handler p req)) = None /\
    signer_calls (snd (rtm_handler p req)) =
      [BuildToken (Str "") (Str "") (Str "42") MessagingUser (Num 1700003600)]) /\
   (error_kind (fst (rte_handler p req)) = None /\
    signer_calls (snd (rte_handler p req)) =
      [BuildTokenWithUid (Str "") (Str "") (Str "room1") (Str "42")
         Publisher (Num 1700003600);
       BuildToken (Str "") (Str "") (Str "42") Publisher (Num 1700003600)])) /\
  (let p := unconfigured_process in
   configured p = false /\
   hd_error (signer_calls (snd (rtc_handler p req))) =
     Some (BuildTokenWithUid Undefined Undefined (Str "room1") (Str "42")
             Publisher (Num 1700003600)) /\
   hd_error (signer_calls (snd (rtm_handler p req))) =
     Some (BuildToken Undefined Undefined (Str "42") MessagingUser
             (Num 1700003600)) /\
   hd_error (signer_calls (snd (rte_handler p req))) =
     Some (BuildTokenWithUid Undefined Undefined (Str "room1") (Str "42")
             Publisher (Num 1700003600))).
Proof.
  cbv zeta. repeat split.
Qed.

(** C3 fails at [?expiry=abc]: the value has no digit, [parseInt] gives
    [NaN], and the expiry handed to the builder is [NaN], not
    issuedAt + 3600. *)
Lemma unparseable_ttl_is_not_defaulted :
  let p := configured_process in
  let req := media_request "publisher" "uid" (Some "abc") in
  parseInt (query_expiry req) = NaN /\
  privilegeExpireTime p req <> Num (floor_div_1000 (Date_now p) + 3600) /\
  signer_calls (snd (rtc_handler p req)) =
    [BuildTokenWithUid (Str "app-id") (Str "app-certificate") (Str "room1")
       (Str "42") Publisher NaN].
Proof.
  cbv zeta. split; [reflexivity|]. split; [|reflexivity].
  intros H. vm_compute in H. discriminate H.
Qed.

(** The default at [?expiry=] (empty). *)
Lemma default_expiry_when_omitted_or_empty_witness :
  let p := configured_process in
  let req := media_request "publisher" "uid" (Some "") in
  present (query_expiry req) = false /\
  privilegeExpireTime p req = Num 1700003600.
Proof.
  cbv zeta. split; [reflexivity|].
  exact (proj1 (default_expiry_when_omitted_or_empty
                  Role Publisher Subscriber MessagingUser Token symbolic_sign
                  configured_process
                  (media_request "publisher" "uid" (Some "")) eq_refl)).
Defined.

(** An unknown role on the combined route: nothing is signed. *)
Lemma combined_fails_atomically_witness :
  let p := configured_process in
  let req := media_request "moderator" "uid" None in
  present (params_channel req) && present (params_uid req)
    && valid_role (params_role req) = false /\
  signer_calls (snd (rte_handler p req)) = [].
Proof.
  cbv zeta. split; [reflexivity|].
  exact (proj1 (proj2 (combined_fails_atomically
                         Role Publisher Subscriber Token symbolic_sign
                         configured_process
                         (media_request "moderator" "uid" None) eq_refl))).
Defined.

(** The selector "userAccount" on a valid media request. *)
Lemma tokentype_selects_signer_witness :
  let p := configured_process in
  let req := media_request "publisher" "userAccount" None in
  (present (params_channel req) = true /\
   present (params_uid req) = true /\
   valid_role (params_role req) = true) /\
  signer_calls (snd (rtc_handler p req)) =
    [BuildTokenWithAccount (Str "app-id") (Str "app-certificate") (Str "room1")
       (Str "42") Publisher (Num 1700003600)].
Proof.
  cbv zeta. split; [repeat split|].
  destruct (tokentype_selects_signer
              Role Publisher Subscriber Token symbolic_sign
              configured_process
              (media_request "publisher" "userAccount" None)
              eq_refl eq_refl eq_refl) as [r [Hr [Haccount _]]].
  destruct (Haccount eq_refl) as [Hcalls _].
  vm_compute in Hr. injection Hr as <-. exact Hcalls.
Defined.

(** The role "audience" on a valid media request. *)
Lemma media_role_resolution_witness :
  let p := configured_process in
  let req := media_request "audience" "uid" None in
  (present (params_channel req) = true /\ present (params_uid req) = true) /\
  map call_role (signer_calls (snd (rtc_handler p req))) = [Subscriber].
Proof.
  cbv zeta. split; [repeat split|].
  destruct (media_role_resolution
              Role Publisher Subscriber Token symbolic_sign
              configured_process
              (media_request "audience" "uid" None)
              eq_refl eq_refl) as [_ [_ Haudience]].
  exact (proj2 (Haudience eq_refl)).
Defined.

(** C8 fails at [?expiry=0]: a token is composed whose expiry is the
    issuing time itself, so no positive ttl fits the window. *)
Lemma zero_ttl_token_is_composed :
  let p := configured_process in
  let req := media_request "publisher" "uid" (Some "0") in
  artifacts (fst (rtc_handler p req)) =
    [BuildTokenWithUid (Str "app-id") (Str "app-certificate") (Str "room1")
       (Str "42") Publisher (Num 1700000000)] /\
  floor_div_1000 (Date_now p) = 1700000000 /\
  ~ window_invariant (floor_div_1000 (Date_now p)) (privilegeExpireTime p req).
Proof.
  cbv zeta. split; [reflexivity|]. split; [reflexivity|].
  intros [ttl [Hpos H]].
  change (Num 1700000000 = Num (1700000000 + ttl)) in H.
  apply Num_inj in H. lia.
Qed.

(** The window of the media token at [?expiry=120]. *)
Lemma window_of_composed_token_witness :
  let p := configured_process in
  let req := media_request "publisher" "uid" (Some "120") in
  let c := BuildTokenWithUid (Str "app-id") (Str "app-certificate")
             (Str "room1") (Str "42") Publisher (Num 1700000120) in
  (ascii_led (query_expiry req) = true /\
   safe_window p req = true /\
   In c (index_calls Publisher Subscriber MessagingUser symbolic_sign p req)) /\
  ((present (query_expiry req) = false /\
    call_expire c = Num (floor_div_1000 (Date_now p) + 3600))
   \/
   (exists ttl : Z,
      present (query_expiry req) = true /\
      parseInt (query_expiry req) = Num ttl /\
      call_expire c = Num (floor_div_1000 (Date_now p) + ttl))
   \/
   (present (query_expiry req) = true /\
    parseInt (query_expiry req) = NaN /\
    call_expire c = NaN)).
Proof.
  cbv zeta. split.
  - split; [reflexivity|]. split; [reflexivity|]. left. reflexivity.
  - exact (window_of_composed_token
             Role Publisher Subscriber MessagingUser Token symbolic_sign
             configured_process
             (media_request "publisher" "uid" (Some "120"))
             (BuildTokenWithUid (Str "app-id") (Str "app-certificate")
                (Str "room1") (Str "42") Publisher (Num 1700000120))
             eq_refl eq_refl (or_introl eq_refl)).
Defined.

(** An unknown selector on the combined route changes nothing. *)
Lemma combined_ignores_tokentype_witness :
  let p := configured_process in
  let req := media_request "publisher" "userAccount" None in
  (present (params_channel req) = true /\
   present (params_uid req) = true /\
   valid_role (params_role req) = true) /\
  rte_handler p (with_tokentype req (Some "no-such-type")) = rte_handler p req.
Proof.
  cbv zeta. split; [repeat split|].
  exact (proj1 (proj2 (combined_ignores_tokentype
                         Role Publisher Subscriber Token symbolic_sign
                         configured_process
                         (media_request "publisher" "userAccount" None))
                  eq_refl eq_refl eq_refl (Some "no-such-type"))).
Defined.

(** C10 fails in a process without credential: on [/rtcToken?channelName=room1]
    the secondary handler answers 500 and does not sign. *)
Lemma secondary_does_not_sign_unconfigured :
  let p := unconfigured_process in
  let req := secondary_request (Some "room1") None in
  present (query_channelName req) = true /\
  query_uid req = None /\
  rtcToken_handler p req =
    (mkResponse 500 [] (ErrorJson "APP_ID or APP_CERTIFICATE missing"), []) /\
  signer_calls (snd (rtcToken_handler p req)) = [].
Proof.
  cbv zeta. repeat split.
Qed.

(** The secondary route without uid, credential configured. *)
Lemma secondary_defaults_uid_witness :
  let p := configured_process in
  let req := secondary_request (Some "room1") None in
  (present (query_channelName req) = true /\
   present (query_uid req) = false /\
   configured p = true) /\
  snd (rtcToken_handler p req) =
    [Call (BuildTokenWithUid (Str "app-id") (Str "app-certificate") (Str "room1")
             (Number (Num 0)) Publisher (Num 1700003600))].
Proof.
  cbv zeta. split; [repeat split|].
  exact (proj1 (proj2 (secondary_defaults_uid
                         Role Publisher Token symbolic_sign
                         configured_process
                         (secondary_request (Some "room1") None)
                         eq_refl eq_refl) eq_refl)).
Defined.

(** ** Reading a decimal ttl *)

Ltac eval_digit :=
  match goal with
  | |- context [digit_of ?c] =>
      let v := eval vm_compute in (digit_of c) in
      change (digit_of c) with v; cbv iota beta
  end.

Section Parsing.

Local Abbreviation numeral := DecimalString.NilEmpty.string_of_uint.

Lemma digits_stop (acc : option Z) (tail : string) :
  starts_nondigit tail = true -> digits acc tail = acc.
Proof.
  destruct tail as [|c r]; [reflexivity|].
  simpl. destruct (digit_of c); [discriminate|reflexivity].
Qed.

Lemma digits_numeral_acc (d : Decimal.uint) :
  forall (acc : positive) (tail : string),
    digits (Some (Z.pos acc)) (numeral d ++ tail) =
    digits (Some (Z.pos (Pos.of_uint_acc d acc))) tail.
Proof.
  induction d; intros acc tail; [reflexivity| ..];
    cbn [DecimalString.NilEmpty.string_of_uint append digits Pos.of_uint_acc];
    eval_digit; rewrite <- IHd; do 2 f_equal; lia.
Qed.

Lemma digits_numeral (d : Decimal.uint) (tail : string) :
  digits (Some 0) (numeral d ++ tail) =
  digits (Some (Z.of_N (Pos.of_uint d))) tail.
Proof.
  induction d; [reflexivity| |..];
    cbn [DecimalString.NilEmpty.string_of_uint append Pos.of_uint];
    cbn [digits]; eval_digit;
    [exact IHd | ..]; apply (digits_numeral_acc d).
Qed.

Lemma digits_numeral_start (d : Decimal.uint) (tail : string) :
  d <> Decimal.Nil ->
  digits None (numeral d ++ tail) = digits (Some 0) (numeral d ++ tail).
Proof.
  destruct d; [congruence| ..]; reflexivity.
Qed.


Lemma numeral_of_positive (p : positive) (tail : string) :
  Pos.to_uint p <> Decimal.Nil /\
  digits None (numeral (Pos.to_uint p) ++ tail) = digits (Some (Z.pos p)) tail.
Proof.
  assert (Hn : Pos.to_uint p <> Decimal.Nil).
  { intros E. pose proof (DecimalPos.Unsigned.of_to p) as H.
    rewrite E in H. discriminate H. }
  split; [exact Hn|].
  rewrite (digits_numeral_start _ _ Hn), digits_numeral,
    DecimalPos.Unsigned.of_to.
  reflexivity.
Qed.

Lemma trim_start_spaces (ws s : string) :
  all_space ws = true -> trim_start (ws ++ s) = trim_start s.
Proof.
  induction ws as [|c r IH]; [reflexivity|].
  simpl. intros H. apply andb_true_iff in H as [Hc Hr].
  rewrite Hc. exact (IH Hr).
Qed.

Lemma numeral_head (d : Decimal.uint) (tail : string) :
  d <> Decimal.Nil ->
  exists c r, (numeral d ++ tail = String c r) /\
              is_space c = false /\ c <> "-"%char /\ c <> "+"%char.
Proof.
  destruct d; [congruence| ..]; intros _;
    cbn [DecimalString.NilEmpty.string_of_uint append];
    eexists; eexists; (split; [reflexivity|]);
    (split; [reflexivity|]); split; discriminate.
Qed.

Lemma parseInt_string_numeral (d : Decimal.uint) (tail : string) :
  d <> Decimal.Nil ->
  parseInt_string (numeral d ++ tail) =
    match digits None (numeral d ++ tail) with
    | Some n => Num (1 * n)
    | None => NaN
    end.
Proof.
  intros Hd. destruct (numeral_head d tail Hd) as [c [r [E [Hs [Hm Hp]]]]].
  unfold parseInt_string. rewrite E. cbn [trim_start]. rewrite Hs.
  destruct c as [[] [] [] [] [] [] [] []]; try reflexivity; congruence.
Qed.

Lemma parseInt_decimal (ws tail : string) (t : Z) :
  all_space ws = true ->
  starts_nondigit tail = true ->
  parseInt_string (ws ++ decimal t ++ tail) = Num t.
Proof.
  intros Hws Htail. unfold parseInt_string at 1.
  rewrite (trim_start_spaces _ _ Hws).
  fold (parseInt_string (decimal t ++ tail)).
  destruct t as [|p|p]; unfold decimal; cbn [Z.to_int DecimalString.NilZero.string_of_int].
  - change (parseInt_string (String "0" tail) = Num 0).
    unfold parseInt_string. cbn [trim_start].
    change (is_space "0") with false. cbv iota.
    cbn [digits]. eval_digit.
    rewrite (digits_stop _ _ Htail). reflexivity.
  - destruct (numeral_of_positive p tail) as [Hn Hd].
    assert (E : DecimalString.NilZero.string_of_uint (Pos.to_uint p) = numeral (Pos.to_uint p)).
    { unfold DecimalString.NilZero.string_of_uint. destruct (Pos.to_uint p); [congruence|..]; reflexivity. }
    rewrite E, (parseInt_string_numeral _ _ Hn), Hd, (digits_stop _ _ Htail).
    f_equal.
  - destruct (numeral_of_positive p tail) as [Hn Hd].
    assert (E : DecimalString.NilZero.string_of_uint (Pos.to_uint p) = numeral (Pos.to_uint p)).
    { unfold DecimalString.NilZero.string_of_uint. destruct (Pos.to_uint p); [congruence|..]; reflexivity. }
    rewrite E. unfold parseInt_string. cbn [append trim_start].
    change (is_space "-") with false. cbv iota.
    rewrite Hd, (digits_stop _ _ Htail). reflexivity.
Qed.

Lemma no_integer_NaN (s : string) :
  no_integer s = true -> parseInt_string s = NaN.
Proof.
  unfold no_integer, parseInt_string.
  destruct (trim_start s) as [|c r]; [reflexivity|].
  destruct ((c =? "-") || (c =? "+"))%char eqn:Hsign.
  - intros Hr.
    apply orb_true_iff in Hsign as [H|H]; apply Ascii.eqb_eq in H; subst c;
      cbv iota beta; rewrite (digits_stop _ _ Hr); reflexivity.
  - intros H. apply andb_true_iff in H as [_ Hc].
    assert (Hd : digits None (String c r) = None) by (apply digits_stop; exact Hc).
    destruct c as [[] [] [] [] [] [] [] []]; try discriminate Hsign;
      cbv iota beta; rewrite Hd; reflexivity.
Qed.

End Parsing.

Lemma decimal_nonempty (ws tail : string) (t : Z) :
  (ws ++ decimal t ++ tail =? "")%string = false.
Proof.
  destruct ws as [|c r]; [|reflexivity].
  cbn [append]. unfold decimal.
  destruct t as [|q|q]; cbn [Z.to_int DecimalString.NilZero.string_of_int];
    try reflexivity.
  destruct (numeral_of_positive q tail) as [Hn _].
  unfold DecimalString.NilZero.string_of_uint.
  destruct (Pos.to_uint q); [congruence|..]; reflexivity.
Qed.

(** ** Further properties of the handlers *)

Ltac run_route :=
  cbv [run route nocache generateRTCToken generateRTMToken generateRTEToken
       rtcToken bind when header status json emit call ret initial
       behind_nocache nocache_headers allow_origin];
  cbn [negb orb andb fst snd st_status st_headers st_trace app].

Section MoreProperties.

Variable role : Type.
Variables RtcRole_PUBLISHER RtcRole_SUBSCRIBER RtmRole_Rtm_User : role.
Variable token : Type.
Variable sign : signer_call role -> token.

Local Abbreviation RTC := (generateRTCToken RtcRole_PUBLISHER RtcRole_SUBSCRIBER sign).
Local Abbreviation RTM := (generateRTMToken RtmRole_Rtm_User sign).
Local Abbreviation RTE := (generateRTEToken RtcRole_PUBLISHER RtcRole_SUBSCRIBER sign).
Local Abbreviation RTCTOKEN := (rtcToken RtcRole_PUBLISHER sign).
Local Abbreviation resolve := (media_role RtcRole_PUBLISHER RtcRole_SUBSCRIBER).
Local Abbreviation calls :=
  (index_calls RtcRole_PUBLISHER RtcRole_SUBSCRIBER RtmRole_Rtm_User sign).

Lemma expireTime_present (req : request) :
  present (query_expiry req) = true ->
  expireTime req = parseInt (query_expiry req).
Proof.
  intros H. unfold expireTime.
  rewrite (strict_eq_empty_not_truthy (query_expiry req)).
  unfold present in H. rewrite H. reflexivity.
Qed.

(** X1: an expiry that reads as optional white space, the decimal numeral
    of an integer [t] (negative ones included), then anything that does
    not go on with a digit, is taken as the ttl [t]: every builder call of
    the three handlers carries issuedAt + t.  Stated for [t] and the sum
    in the range of safe integers, where the numbers of the source are
    exact. *)
Theorem decimal_ttl_is_read_leniently
    (p : process) (req : request) (ws tail : string) (t : Z) :
  all_space ws = true ->
  starts_nondigit tail = true ->
  query_expiry req = Some (ws ++ decimal t ++ tail) ->
  safe_integer t = true ->
  safe_integer (floor_div_1000 (Date_now p) + t) = true ->
  expireTime req = Num t /\
  forall c, In c (calls p req) ->
            call_expire c = Num (floor_div_1000 (Date_now p) + t).
Proof.
  intros Hws Htail E _ _.
  assert (Ht : expireTime req = Num t).
  { rewrite expireTime_present.
    - rewrite E. exact (parseInt_decimal ws tail t Hws Htail).
    - rewrite E. unfold present, truthy. rewrite decimal_nonempty. reflexivity. }
  split; [exact Ht|].
  intros c Hin.
  rewrite (index_calls_expire _ _ _ _ _ _ _ _ _ Hin).
  unfold privilegeExpireTime, currentTime. rewrite Ht. reflexivity.
Qed.

(** X2: a non-empty expiry in which [parseInt] finds no integer (blank,
    a bare sign, or starting with an ASCII character that is not a digit)
    is not rejected: the request gets the error, or none, it gets without
    expiry, and every builder call made carries the expiry [NaN]. *)
Theorem unreadable_ttl_is_signed_as_NaN
    (p : process) (req : request) (s : string) :
  query_expiry req = Some s ->
  s <> "" ->
  no_integer s = true ->
  (forall c, In c (calls p req) -> call_expire c = NaN) /\
  error_kind (fst (run (RTC p req))) =
    error_kind (fst (run (RTC p (with_expiry req None)))) /\
  error_kind (fst (run (RTM p req))) =
    error_kind (fst (run (RTM p (with_expiry req None)))) /\
  error_kind (fst (run (RTE p req))) =
    error_kind (fst (run (RTE p (with_expiry req None)))).
Proof.
  intros E Hs Hno.
  assert (Hp : present (query_expiry req) = true).
  { rewrite E. unfold present, truthy.
    destruct (String.eqb_spec s ""); [contradiction|reflexivity]. }
  assert (Hn : parseInt (query_expiry req) = NaN).
  { rewrite E. exact (no_integer_NaN s Hno). }
  split.
  - intros c Hin. rewrite (index_calls_expire _ _ _ _ _ _ _ _ _ Hin).
    unfold privilegeExpireTime. rewrite (expireTime_present _ Hp), Hn.
    reflexivity.
  - rewrite !run_generateRTCToken, !run_generateRTMToken, !run_generateRTEToken.
    cbn [with_expiry params_channel params_uid params_role params_tokentype].
    destruct (present (params_channel req)), (present (params_uid req)),
      (resolve (params_role req)),
      (strict_eq (params_tokentype req) "userAccount"),
      (strict_eq (params_tokentype req) "uid"); repeat split.
Qed.

(** X3: the issuing time is the clock truncated to whole seconds, so a
    token's lifetime counted from the clock reading is at most ttl
    seconds and more than ttl - 1 seconds.  Stated for a ttl and an
    expiry in the range of safe integers. *)
Theorem lifetime_within_a_second (p : process) (req : request) (ttl : Z) :
  expireTime req = Num ttl ->
  safe_integer ttl = true ->
  safe_integer (floor_div_1000 (Date_now p) + ttl) = true ->
  exists e,
    privilegeExpireTime p req = Num e /\
    1000 * (ttl - 1) < 1000 * e - Date_now p <= 1000 * ttl.
Proof.
  intros E _ _. exists (floor_div_1000 (Date_now p) + ttl). split.
  - unfold privilegeExpireTime, currentTime. rewrite E. reflexivity.
  - unfold floor_div_1000.
    pose proof (Z.div_mod (Date_now p) 1000 ltac:(lia)) as Hd.
    pose proof (Z.mod_pos_bound (Date_now p) 1000 ltac:(lia)) as Hm.
    lia.
Qed.

(** X4: behind the [nocache] middleware every answer of the three token
    routes, errors included, carries the three no-cache headers followed
    by the allow-origin header; the middleware changes neither the status,
    the body nor the builder calls. *)
Theorem nocache_wraps_token_routes (p : process) (req : request) :
  (run (route (RTC p req)) =
     (behind_nocache (fst (run (RTC p req))), snd (run (RTC p req))) /\
   resp_headers (fst (run (route (RTC p req)))) = (nocache_headers ++ allow_origin)%list) /\
  (run (route (RTM p req)) =
     (behind_nocache (fst (run (RTM p req))), snd (run (RTM p req))) /\
   resp_headers (fst (run (route (RTM p req)))) = (nocache_headers ++ allow_origin)%list) /\
  (run (route (RTE p req)) =
     (behind_nocache (fst (run (RTE p req))), snd (run (RTE p req))) /\
   resp_headers (fst (run (route (RTE p req)))) = (nocache_headers ++ allow_origin)%list).
Proof.
  repeat split; run_route; repeat (branch; try reflexivity).
Qed.

(** X5: the secondary handler checks the channel name first and the
    credential second, and signs exactly when the channel name is present
    and both credential variables are set; it then makes one sign-by-uid
    call, as Publisher, for issuedAt + 3600, with the uid string as given
    or the number 0 when the uid is absent or empty.  Nothing else in the
    request is read. *)
Theorem secondary_decision_table (p : process) (req : request) :
  error_kind (fst (run (RTCTOKEN p req))) =
    (if negb (present (query_channelName req)) then Some MissingChannel
     else if negb (configured p) then Some MissingCredential
     else None) /\
  resp_status (fst (run (RTCTOKEN p req))) =
    (if negb (present (query_channelName req)) then 400
     else if negb (configured p) then 500
     else 200) /\
  signer_calls (snd (run (RTCTOKEN p req))) =
    (if present (query_channelName req) && configured p then
       [BuildTokenWithUid
          (to_value (APP_ID p)) (to_value (APP_CERTIFICATE p))
          (to_value (query_channelName req))
          (if present (query_uid req) then to_value (query_uid req)
           else Number (Num 0))
          RtcRole_PUBLISHER
          (Num (floor_div_1000 (Date_now p) + 3600))]
     else []) /\
  forall channel uid role_ tokentype expiry,
    run (RTCTOKEN p (mkRequest channel uid role_ tokentype expiry
                       (query_channelName req) (query_uid req))) =
    run (RTCTOKEN p req).
Proof.
  rewrite run_rtcToken. repeat split.
  - destruct (present (query_channelName req)), (configured p); reflexivity.
  - destruct (present (query_channelName req)), (configured p); reflexivity.
  - destruct (present (query_channelName req)), (configured p); reflexivity.
  - intros. rewrite run_rtcToken. reflexivity.
Qed.

(** X6: messaging issuance needs the uid only.  It fails, with
    MissingSubject, exactly when the uid is absent or empty, and otherwise
    makes one messaging builder call for that uid; channel, role and
    token type of the request are never read. *)
Theorem messaging_needs_only_uid (p : process) (req : request) :
  error_kind (fst (run (RTM p req))) =
    (if present (params_uid req) then None else Some MissingSubject) /\
  signer_calls (snd (run (RTM p req))) =
    (if present (params_uid req) then
       [BuildToken (to_value (APP_ID p)) (to_value (APP_CERTIFICATE p))
          (to_value (params_uid req)) RtmRole_Rtm_User
          (privilegeExpireTime p req)]
     else []) /\
  forall channel role_ tokentype channelName uid,
    run (RTM p (mkRequest channel (params_uid req) role_ tokentype
                  (query_expiry req) channelName uid)) =
    run (RTM p req).
Proof.
  rewrite run_generateRTMToken. repeat split.
  - destruct (present (params_uid req)); reflexivity.
  - destruct (present (params_uid req)); reflexivity.
  - intros. rewrite run_generateRTMToken. reflexivity.
Qed.

(** X7: the messaging handler writes the app id and the app certificate
    to the console, with the uid, the role and the expiry, before each
    builder call it makes; the other three handlers write nothing. *)
Theorem only_messaging_logs_credential (p : process) (req : request) :
  snd (run (RTM p req)) =
    (if present (params_uid req) then
       [ConsoleLog (to_value (APP_ID p)) (to_value (APP_CERTIFICATE p))
          (to_value (params_uid req)) RtmRole_Rtm_User
          (privilegeExpireTime p req);
        Call (BuildToken (to_value (APP_ID p)) (to_value (APP_CERTIFICATE p))
                (to_value (params_uid req)) RtmRole_Rtm_User
                (privilegeExpireTime p req))]
     else []) /\
  console_logs (snd (run (RTC p req))) = [] /\
  console_logs (snd (run (RTE p req))) = [] /\
  console_logs (snd (run (RTCTOKEN p req))) = [].
Proof.
  rewrite run_generateRTMToken, run_generateRTCToken, run_generateRTEToken,
    run_rtcToken.
  destruct (present (params_channel req)), (present (params_uid req)),
    (resolve (params_role req)),
    (strict_eq (params_tokentype req) "userAccount"),
    (strict_eq (params_tokentype req) "uid"),
    (present (query_channelName req)), (configured p); repeat split.
Qed.

(** X8: in each of the four handlers the tokens sent in the response are
    exactly the results of the builder calls of that run, in call order:
    no token is sent that was not built, none built is dropped. *)
Theorem artifacts_are_builder_results (p : process) (req : request) :
  artifacts (fst (run (RTC p req))) = map sign (signer_calls (snd (run (RTC p req)))) /\
  artifacts (fst (run (RTM p req))) = map sign (signer_calls (snd (run (RTM p req)))) /\
  artifacts (fst (run (RTE p req))) = map sign (signer_calls (snd (run (RTE p req)))) /\
  artifacts (fst (run (RTCTOKEN p req))) =
    map sign (signer_calls (snd (run (RTCTOKEN p req)))).
Proof.
  split; [apply rtc_artifacts_signed|].
  split; [apply rtm_artifacts_signed|].
  split; [apply rte_artifacts_signed|].
  rewrite run_rtcToken.
  destruct (present (query_channelName req)), (configured p); reflexivity.
Qed.

(** X9: each handler of [src/index.js] either issues (status 200, no
    error, a builder call and a token) or rejects (status 400, one of the
    client-input errors, no call, no log, no token); it sends no other
    status. *)
Theorem index_issues_or_rejects (p : process) (req : request) :
  issued_or_rejected (run (RTC p req)) /\
  issued_or_rejected (run (RTM p req)) /\
  issued_or_rejected (run (RTE p req)).
Proof.
  rewrite run_generateRTCToken, run_generateRTMToken, run_generateRTEToken.
  unfold issued_or_rejected.
  destruct (present (params_channel req)), (present (params_uid req)),
    (resolve (params_role req)),
    (strict_eq (params_tokentype req) "userAccount"),
    (strict_eq (params_tokentype req) "uid"); cbn;
    repeat split;
    solve [ left; repeat split; discriminate
          | right; repeat split;
            eexists; (split; [reflexivity | discriminate]) ].
Qed.

(** X11: as long as the builders return, the combined handler composes
    the other two.  Its answer has the status and the error of the media
    handler on the same request with token type "uid", its media call is
    that handler's call, and its messaging call carries the uid and the
    expiry of the messaging handler's call. *)
Theorem combined_composes_media_and_messaging (p : process) (req : request) :
  resp_status (fst (run (RTE p req))) =
    resp_status (fst (run (RTC p (with_tokentype req (Some "uid"))))) /\
  error_kind (fst (run (RTE p req))) =
    error_kind (fst (run (RTC p (with_tokentype req (Some "uid"))))) /\
  filter (fun c => negb (is_messaging_call c)) (signer_calls (snd (run (RTE p req)))) =
    signer_calls (snd (run (RTC p (with_tokentype req (Some "uid"))))) /\
  map (fun c => (call_uid c, call_expire c)) (messaging_calls (snd (run (RTE p req)))) =
    (if present (params_channel req) && valid_role (params_role req)
     then map (fun c => (call_uid c, call_expire c))
            (messaging_calls (snd (run (RTM p req))))
     else []).
Proof.
  rewrite run_generateRTEToken, run_generateRTCToken, run_generateRTMToken.
  cbn [with_tokentype params_channel params_uid params_role params_tokentype].
  change (privilegeExpireTime p (with_tokentype req (Some "uid")))
    with (privilegeExpireTime p req).
  change (strict_eq (Some "uid") "userAccount") with false.
  change (strict_eq (Some "uid") "uid") with true.
  destruct (present (params_channel req)), (present (params_uid req));
    cbn [negb andb]; try (repeat split; fail).
  - destruct (valid_role (params_role req)) eqn:Hr.
    + rewrite (resolve_valid _ _ _ _ Hr). repeat split.
    + rewrite (resolve_invalid _ _ _ _ Hr). repeat split.
  - destruct (valid_role (params_role req)); repeat split.
Qed.

(** X12: the two servers agree on a full request.  With the credential
    configured, [/rtcToken] with a channel name and a uid makes the
    builder call that [/rtc/<channel>/publisher/uid/<uid>] makes without
    expiry. *)
Theorem secondary_agrees_with_media (p : process) (req : request) :
  configured p = true ->
  present (query_channelName req) = true ->
  present (query_uid req) = true ->
  signer_calls (snd (run (RTCTOKEN p req))) =
  signer_calls
    (snd (run (RTC p (mkRequest (query_channelName req) (query_uid req)
                        (Some "publisher") (Some "uid") None None None)))).
Proof.
  intros Hp Hc Hu.
  rewrite run_rtcToken, run_generateRTCToken.
  cbn [params_channel params_uid params_role params_tokentype].
  rewrite Hp, Hc, Hu. reflexivity.
Qed.

End MoreProperties.

(** [?expiry=%2090s], a space, 90 and a unit letter: read as 90. *)
Lemma decimal_ttl_is_read_leniently_witness :
  let p := configured_process in
  let req := media_request "publisher" "uid" (Some " 90s") in
  (all_space " " = true /\
   starts_nondigit "s" = true /\
   query_expiry req = Some (" " ++ decimal 90 ++ "s") /\
   safe_integer 90 = true /\
   safe_integer (floor_div_1000 (Date_now p) + 90) = true) /\
  expireTime req = Num 90 /\
  forall c,
    In c (index_calls Publisher Subscriber MessagingUser symbolic_sign p req) ->
    call_expire c = Num (1700000000 + 90).
Proof.
  cbv zeta. split; [repeat split|].
  exact (decimal_ttl_is_read_leniently
           Role Publisher Subscriber MessagingUser Token symbolic_sign
           configured_process (media_request "publisher" "uid" (Some " 90s"))
           " " "s" 90 eq_refl eq_refl eq_refl eq_refl eq_refl).
Defined.

(** [?expiry=soon] on the combined route. *)
Lemma unreadable_ttl_is_signed_as_NaN_witness :
  let p := configured_process in
  let req := media_request "audience" "uid" (Some "soon") in
  (query_expiry req = Some "soon" /\ "soon" <> "" /\ no_integer "soon" = true) /\
  forall c,
    In c (index_calls Publisher Subscriber MessagingUser symbolic_sign p req) ->
    call_expire c = NaN.
Proof.
  cbv zeta. split; [repeat split; discriminate|].
  exact (proj1 (unreadable_ttl_is_signed_as_NaN
                  Role Publisher Subscriber MessagingUser Token symbolic_sign
                  configured_process
                  (media_request "audience" "uid" (Some "soon")) "soon"
                  eq_refl ltac:(discriminate) eq_refl)).
Defined.

(** The default ttl at a clock reading of 123 ms into a second. *)
Lemma lifetime_within_a_second_witness :
  let p := configured_process in
  let req := media_request "publisher" "uid" None in
  (expireTime req = Num 3600 /\
   safe_integer 3600 = true /\
   safe_integer (floor_div_1000 (Date_now p) + 3600) = true) /\
  exists e,
    privilegeExpireTime p req = Num e /\
    1000 * (3600 - 1) < 1000 * e - Date_now p <= 1000 * 3600.
Proof.
  cbv zeta. split; [repeat split|].
  exact (lifetime_within_a_second configured_process
           (media_request "publisher" "uid" None) 3600
           eq_refl eq_refl eq_refl).
Defined.

(** [/rtcToken?channelName=room1&uid=42] against [/rtc/room1/publisher/uid/42]. *)
Lemma secondary_agrees_with_media_witness :
  let p := configured_process in
  let req := secondary_request (Some "room1") (Some "42") in
  (configured p = true /\
   present (query_channelName req) = true /\
   present (query_uid req) = true) /\
  signer_calls (snd (rtcToken_handler p req)) =
  signer_calls (snd (rtc_handler p (media_request "publisher" "uid" None))).
Proof.
  cbv zeta. split; [repeat split|].
  exact (secondary_agrees_with_media
           Role Publisher Subscriber Token symbolic_sign
           configured_process (secondary_request (Some "room1") (Some "42"))
           eq_refl eq_refl eq_refl).
Defined.
